(** * chartmuseum2oci: migration of Helm charts from ChartMuseum to OCI

    A shallow embedding of [chartmuseum2oci/main.go].  The program talks to
    the outside world (the [helm] binary, an HTTP server, the working
    directory, the logger); every such library call is an [Event] appended
    to the trace of the [World], and the answers of the outside world are
    given by an environment [Env] that may look at the whole world at the
    time of the call.  Go's [error] results are [option error] ([None] is
    [nil]). *)

From Stdlib Require Import ZArith String List Lia.
From stdpp Require Import gmap strings list fin_maps.

Open Scope Z_scope.
Open Scope string_scope.

(** ** Data model *)

Record HelmChart := mkHelmChart {
  Name : string;
  Project : string;
  Version : string
}.

(** [fmt.Sprintf("%s-%s.tgz", hc.Name, hc.Version)] *)
Definition ChartFileName (hc : HelmChart) : string :=
  Name hc ++ "-" ++ Version hc ++ ".tgz".

(** The constants of the [const] block.  [fileMode] is [0o600], owner read
    and write; [time.Second] is [10^9] nanoseconds, the unit of a
    [time.Duration]. *)
Definition fileMode : Z := 6 * 64.
Definition helmBinaryPath : string := "helm".
Definition time_Second : Z := 1000000000.
Definition timeout : Z := 5 * time_Second.
Definition defaultPageSize : Z := 10.

(** Go's [int] (64 bits): the value of an arithmetic result after
    wrap-around. *)
Definition int_wrap (z : Z) : Z := (z + 2 ^ 63) mod 2 ^ 64 - 2 ^ 63.
Definition max_int : Z := 2 ^ 63 - 1.

(** The values of a Go [int]. *)
Definition in_int (z : Z) : Prop := - 2 ^ 63 <= z <= max_int.

(** [len] of a slice; a Go slice never holds more than [max_int]
    elements. *)
Definition len {A} (l : list A) : Z := Z.of_nat (length l).

(** The package-level variables filled by the flags. *)
Record Config := mkConfig {
  sourceHarborURL : string;
  sourceHarborUsername : string;
  sourceHarborPassword : string;
  destinationHarborURL : string;
  destinationHarborUsername : string;
  destinationHarborPassword : string;
  destPath : string;
  projectsToMigrate : list string
}.

(** Errors, by the library call that produces them; [Wrap] is
    [errors.Wrap]/[errors.Wrapf]. *)
Inductive error :=
| ErrNewRequest (msg : string)   (* http.NewRequest *)
| ErrTransport (msg : string)    (* client.Do *)
| ErrStatus (code : Z)           (* fmt.Errorf("received status %d", code) *)
| ErrReadBody (msg : string)     (* io.ReadAll *)
| ErrWriteFile (msg : string)    (* os.WriteFile *)
| ErrExec (msg : string)         (* cmd.Run *)
| ErrRemove (msg : string)       (* os.Remove *)
| ErrListCharts (msg : string)   (* getHarborChartmuseumCharts *)
| ErrFlags (msg : string)        (* errors.New in initFlags *)
| Wrap (msg : string) (cause : error).

(** [exec.Cmd]: [exec.Command] builds a command without a context, hence
    without a deadline ([Deadline = None]); only [exec.CommandContext],
    which the program never calls, would set one. *)
Record Cmd := mkCmd {
  Path : string;
  Args : list string;
  Deadline : option Z
}.

Definition exec_Command (name : string) (args : list string) : Cmd :=
  {| Path := name; Args := args; Deadline := None |}.

(** [http.Client]: a [Timeout] of zero means no timeout. *)
Record Client := mkClient { Timeout : Z }.

Record Request := mkRequest {
  Method : string;
  URL : string;
  BasicAuth : option (string * string)
}.

Definition SetBasicAuth (username password : string) (req : Request) : Request :=
  {| Method := Method req; URL := URL req;
     BasicAuth := Some (username, password) |}.

(** A response: its status, and what reading its body to the end gives. *)
Record Response := mkResponse {
  StatusCode : Z;
  Body : string + list Byte.byte
}.

Definition http_MethodGet : string := "GET".
Definition http_StatusOK : Z := 200.

(** What [os.WriteFile] does: it opens the file (create, truncate), writes
    and closes.  A failure to open leaves the directory as it was; a failure
    while writing leaves the first [written] bytes. *)
Inductive WriteResult :=
| WriteOk
| WriteOpenFailed (msg : string)
| WriteShort (msg : string) (written : nat).

Inductive Event :=
| EvRun (cmd : Cmd)
| EvNewRequest (method url : string)
| EvDo (c : Client) (req : Request)
| EvReadAll
| EvBodyClose
| EvWriteFile (name : string) (data : list Byte.byte) (perm : Z)
| EvRemove (name : string)
| EvListCharts
| EvBarDefault (max : Z)
| EvBarAdd (n : Z)
| EvPrintf (format : string) (arg : Z)
| EvPrintln (e : error)
| EvFatal (e : error).

(** The world: the files of the working directory (where charts are
    staged) and the calls made so far, oldest first. *)
Record World := mkWorld {
  files : gmap string (list Byte.byte);
  trace : list Event
}.

(** The outside world.  Every answer may depend on the world at the time
    of the call, so the same call may succeed once and fail later.
    Subprocesses and the chart listing leave the working directory alone. *)
Record Env := mkEnv {
  (* cmd.Run: None when the process exits with 0, else the error and what
     it wrote on its standard error *)
  cmd_run : World -> Cmd -> option (string * string);
  (* http.NewRequest: the reason why method or URL are refused *)
  new_request_fails : string -> string -> option string;
  client_do : World -> Client -> Request -> string + Response;
  write_file : World -> string -> list Byte.byte -> Z -> WriteResult;
  (* os.Remove of a file that exists *)
  remove_fails : World -> string -> option string;
  (* getHarborChartmuseumCharts, which is not part of the sources at hand *)
  list_charts : World -> string + list HelmChart
}.

(** ** The monad of the program: state passing over the world *)

Definition M (A : Type) : Type := World -> A * World.

Definition ret {A} (a : A) : M A := fun w => (a, w).

Definition bind {A B} (m : M A) (k : A -> M B) : M B :=
  fun w => let (a, w1) := m w in k a w1.

Notation "'let!' x ':=' m 'in' k" := (bind m (fun x => k))
  (at level 10, x name, m at level 100, k at level 200).

Definition emit (e : Event) : M unit :=
  fun w => (tt, {| files := files w; trace := trace w ++ [e] |}).

Definition ask {A} (f : World -> A) : M A := fun w => (f w, w).

Definition set_files (fs : gmap string (list Byte.byte)) : M unit :=
  fun w => (tt, {| files := fs; trace := trace w |}).

(** ** The library calls *)

Section Program.

Context (E : Env) (cfg : Config).

(** [cmd.Run()] with [cmd.Stderr] set to a buffer: the error, if any, and
    the content of the buffer. *)
Definition cmd_Run (cmd : Cmd) : M (option (error * string)) :=
  let! r := ask (fun w => cmd_run E w cmd) in
  let! _ := emit (EvRun cmd) in
  ret (match r with
       | None => None
       | Some (msg, stdErr) => Some (ErrExec msg, stdErr)
       end).

Definition http_NewRequest (method url : string) : M (error + Request) :=
  let! _ := emit (EvNewRequest method url) in
  ret (match new_request_fails E method url with
       | Some msg => inl (ErrNewRequest msg)
       | None => inr {| Method := method; URL := url; BasicAuth := None |}
       end).

Definition client_Do (c : Client) (req : Request) : M (error + Response) :=
  let! r := ask (fun w => client_do E w c req) in
  let! _ := emit (EvDo c req) in
  ret (match r with
       | inl msg => inl (ErrTransport msg)
       | inr res => inr res
       end).

Definition io_ReadAll (res : Response) : M (error + list Byte.byte) :=
  let! _ := emit EvReadAll in
  ret (match Body res with
       | inl msg => inl (ErrReadBody msg)
       | inr data => inr data
       end).

Definition Body_Close : M unit := emit EvBodyClose.

Definition os_WriteFile (name : string) (data : list Byte.byte) (perm : Z)
  : M (option error) :=
  let! r := ask (fun w => write_file E w name data perm) in
  let! fs := ask files in
  let! _ := emit (EvWriteFile name data perm) in
  match r with
  | WriteOk =>
      let! _ := set_files (<[name := data]> fs) in ret None
  | WriteOpenFailed msg => ret (Some (ErrWriteFile msg))
  | WriteShort msg n =>
      let! _ := set_files (<[name := take n data]> fs) in
      ret (Some (ErrWriteFile msg))
  end.

(** [os.Remove]: a file that is not there cannot be removed. *)
Definition os_Remove (name : string) : M (option error) :=
  let! fs := ask files in
  let! r := ask (fun w => remove_fails E w name) in
  let! _ := emit (EvRemove name) in
  match fs !! name with
  | None => ret (Some (ErrRemove "no such file or directory"))
  | Some _ =>
      match r with
      | Some msg => ret (Some (ErrRemove msg))
      | None => let! _ := set_files (delete name fs) in ret None
      end
  end.

(** Modelled from the spec: [getHarborChartmuseumCharts] is called by
    [main] but its body is not in the sources at hand.  The spec has it as
    the discovery collaborator: from the source registry and the projects
    it gives the ordered list of charts to migrate, or fails.  It is one
    call to the outside world, which stages no file. *)
Definition getHarborChartmuseumCharts : M (error + list HelmChart) :=
  let! r := ask (list_charts E) in
  let! _ := emit EvListCharts in
  ret (match r with
       | inl msg => inl (ErrListCharts msg)
       | inr charts => inr charts
       end).

Definition log_Printf (format : string) (arg : Z) : M unit :=
  emit (EvPrintf format arg).

Definition log_Println (e : error) : M unit := emit (EvPrintln e).

(** [log.Fatal] prints and calls [os.Exit(1)]: the value is the exit
    status of the process. *)
Definition log_Fatal (e : error) : M Z :=
  let! _ := emit (EvFatal e) in ret 1.

(** ** The program *)


Definition helmLogin (registry username password : string) : M (option error) :=
  let cmd := exec_Command helmBinaryPath
    ["registry"; "login"; "--username"; username; "--password"; password; registry] in
  let! r := cmd_Run cmd in
  match r with
  | Some (err, stdErr) =>
      ret (Some (Wrap ("Failed to execute helm login: " ++ stdErr) err))
  | None => ret None
  end.

Definition sourceURL (helmChart : HelmChart) : string :=
  sourceHarborURL cfg ++ "/chartrepo/" ++ Project helmChart ++ "/charts/"
    ++ ChartFileName helmChart.

Definition pullChartFromSource (helmChart : HelmChart) : M (option error) :=
  let chartFileName := ChartFileName helmChart in
  let! r := http_NewRequest http_MethodGet (sourceURL helmChart) in
  match r with
  | inl err => ret (Some err)
  | inr req =>
      let req := SetBasicAuth (sourceHarborUsername cfg) (sourceHarborPassword cfg) req in
      let client := {| Timeout := timeout |} in
      let! r := client_Do client req in
      match r with
      | inl err => ret (Some err)
      | inr res =>
          (* from here on the deferred res.Body.Close() runs on return *)
          let! result :=
            (if negb (Z.eqb (StatusCode res) http_StatusOK)
             then ret (Some (ErrStatus (StatusCode res)))
             else
               let! r := io_ReadAll res in
               match r with
               | inl err => ret (Some err)
               | inr resBody => os_WriteFile chartFileName resBody fileMode
               end) in
          let! _ := Body_Close in
          ret result
      end
  end.

Definition repoURL (helmChart : HelmChart) : string :=
  "oci://" ++ destinationHarborURL cfg ++ "/" ++ Project helmChart ++ destPath cfg.

Definition pushChartToDestination (helmChart : HelmChart) : M (option error) :=
  let cmd := exec_Command helmBinaryPath
    ["push"; ChartFileName helmChart; repoURL helmChart] in
  let! r := cmd_Run cmd in
  match r with
  | Some (err, stdErr) =>
      ret (Some (Wrap ("Failed to execute helm push: " ++ stdErr) err))
  | None => ret None
  end.

Definition removeChartFile (helmChart : HelmChart) : M (option error) :=
  os_Remove (ChartFileName helmChart).

Definition migrateChartFromSourceToDestination (helmChart : HelmChart)
  : M (option error) :=
  let! err := pullChartFromSource helmChart in
  match err with
  | Some err => ret (Some (Wrap "Failed to pull chart from source" err))
  | None =>
      let! err := pushChartToDestination helmChart in
      match err with
      | Some err => ret (Some (Wrap "Failed to push chart to destination" err))
      | None => removeChartFile helmChart
      end
  end.

(** One turn of the [for ... range helmChartsToMigrate] loop of [main];
    the value is [errorCount] after the turn. *)
Definition loop_body (helmChart : HelmChart) (errorCount : Z) : M Z :=
  let! _ := emit (EvBarAdd 1) in
  let! err := migrateChartFromSourceToDestination helmChart in
  match err with
  | Some err =>
      let errorCount := int_wrap (errorCount + 1) in
      let! _ := log_Println (Wrap "Failed to migrate Helm chart" err) in
      ret errorCount
  | None => ret errorCount
  end.

(** The loop; the value is [errorCount] when it ends. *)
Fixpoint main_loop (helmChartsToMigrate : list HelmChart) (errorCount : Z) : M Z :=
  match helmChartsToMigrate with
  | [] => ret errorCount
  | helmChart :: rest =>
      let! errorCount := loop_body helmChart errorCount in
      main_loop rest errorCount
  end.

Definition msg_to_migrate : string := "%d Helm charts to migrate".
Definition msg_migrated : string := "%d Helm charts successfully migrated".

(** [main] once the charts are known (from the first [log.Printf] on);
    the value is the exit status of the process, 0 as [main] returns. *)
Definition main_migrate (helmChartsToMigrate : list HelmChart) : M Z :=
  let! _ := log_Printf msg_to_migrate (len helmChartsToMigrate) in
  let! _ := emit (EvBarDefault (len helmChartsToMigrate)) in
  let! errorCount := main_loop helmChartsToMigrate 0 in
  let! _ := log_Printf msg_migrated
              (int_wrap (len helmChartsToMigrate - errorCount)) in
  ret 0.

(** [main]; the value is the exit status of the process. *)
Definition main : M Z :=
  let! err := helmLogin (sourceHarborURL cfg) (sourceHarborUsername cfg)
                        (sourceHarborPassword cfg) in
  match err with
  | Some err => log_Fatal (Wrap "Failed to login to source Harbor" err)
  | None =>
      let! err := helmLogin (destinationHarborURL cfg) (destinationHarborUsername cfg)
                            (destinationHarborPassword cfg) in
      match err with
      | Some err => log_Fatal (Wrap "Failed to login to destination Harbor" err)
      | None =>
          let! r := getHarborChartmuseumCharts in
          match r with
          | inl err => log_Fatal (Wrap "Failed to retrieve Helm charts from source" err)
          | inr helmChartsToMigrate => main_migrate helmChartsToMigrate
          end
      end
  end.


End Program.

Arguments sourceURL cfg helmChart : assert.
Arguments repoURL cfg helmChart : assert.

(** ** Observing a run *)

(** The calls made between two worlds of a run. *)
Definition emitted (w w' : World) : list Event :=
  drop (length (trace w)) (trace w').

(** The steps of a transfer, in the order of the program. *)
Inductive Step := Fetch | Persist | Push | Cleanup.

Definition is_push_cmd (cmd : Cmd) : bool :=
  match Args cmd with
  | verb :: _ => String.eqb verb "push"
  | [] => false
  end.

Definition is_login_cmd (cmd : Cmd) : bool :=
  match Args cmd with
  | a :: b :: _ => (String.eqb a "registry" && String.eqb b "login")%bool
  | _ => false
  end.

(** The step a call belongs to; the deferred close of the body and the
    calls of [main] belong to none. *)
Definition step_of (ev : Event) : option Step :=
  match ev with
  | EvNewRequest _ _ | EvDo _ _ | EvReadAll => Some Fetch
  | EvWriteFile _ _ _ => Some Persist
  | EvRun cmd => if is_push_cmd cmd then Some Push else None
  | EvRemove _ => Some Cleanup
  | _ => None
  end.

Definition steps (evs : list Event) : list Step := omap step_of evs.

Definition is_step (s : Step) (ev : Event) : bool :=
  match step_of ev, s with
  | Some Fetch, Fetch | Some Persist, Persist
  | Some Push, Push | Some Cleanup, Cleanup => true
  | _, _ => false
  end.

(** How often a step was attempted. *)
Definition attempts_of (s : Step) (evs : list Event) : nat :=
  length (filter (fun ev => is_step s ev = true) evs).

(** The requests built, as (method, URL). *)
Definition requests (evs : list Event) : list (string * string) :=
  omap (fun ev => match ev with
                  | EvNewRequest m u => Some (m, u)
                  | _ => None
                  end) evs.

(** The errors logged with [log.Println]. *)
Definition diagnostics (evs : list Event) : list error :=
  omap (fun ev => match ev with EvPrintln e => Some e | _ => None end) evs.

(** The lines logged with [log.Printf], as (format, argument). *)
Definition printed (evs : list Event) : list (string * Z) :=
  omap (fun ev => match ev with EvPrintf f a => Some (f, a) | _ => None end) evs.

(** The calls that go over the network, and the time limit each one was
    made with: the [Timeout] of the client (0 is none) for a request, the
    deadline of the command for a subprocess. *)
Definition network_call (ev : Event) : bool :=
  match ev with
  | EvRun _ | EvDo _ _ => true
  | _ => false
  end.

Definition time_limit (ev : Event) : option Z :=
  match ev with
  | EvDo c _ => if Z.eqb (Timeout c) 0 then None else Some (Timeout c)
  | EvRun cmd => Deadline cmd
  | _ => None
  end.

(** The errors of the fetch proper: building the request, the transport,
    the status, reading the body. *)
Definition fetch_error (e : error) : bool :=
  match e with
  | ErrNewRequest _ | ErrTransport _ | ErrStatus _ | ErrReadBody _ => true
  | _ => false
  end.

(** The result of the transfer made by one turn of the loop, for the chart
    [hc], in the world [w] the turn starts in. *)
Definition turn_result (E : Env) (cfg : Config) (hc : HelmChart) (w : World)
  : option error :=
  fst (migrateChartFromSourceToDestination E cfg hc (snd (emit (EvBarAdd 1) w))).

(** The outcome of every turn of the loop, in order: the chart and the
    result of its transfer.  The world of a turn is the one the turns
    before it left. *)
Fixpoint attempts (E : Env) (cfg : Config) (charts : list HelmChart) (w : World)
  : list (HelmChart * option error) :=
  match charts with
  | [] => []
  | helmChart :: rest =>
      (helmChart, turn_result E cfg helmChart w)
        :: attempts E cfg rest (snd (loop_body E cfg helmChart 0 w))
  end.

Definition failures (outs : list (HelmChart * option error)) : list error :=
  omap snd outs.

Definition successes (outs : list (HelmChart * option error)) : list HelmChart :=
  omap (fun o => match snd o with None => Some (fst o) | Some _ => None end) outs.

Open Scope list_scope.

(** The steps of a complete transfer: three calls to fetch (build the
    request, send it, read the body), then persist, push, cleanup. *)
Definition transfer_order : list Step :=
  [Fetch; Fetch; Fetch; Persist; Push; Cleanup].


(** The world in which the loop starts: [main_migrate] has logged the
    number of charts and set up the progress bar. *)
Definition loop_start (charts : list HelmChart) (w : World) : World :=
  snd (emit (EvBarDefault (len charts))
         (snd (log_Printf msg_to_migrate (len charts) w))).

(** The time limit each network call is made with in this program. *)
Definition limit_as_made (ev : Event) : Prop :=
  match ev with
  | EvDo _ _ => time_limit ev = Some (5 * time_Second)%Z
  | EvRun _ => time_limit ev = None
  | _ => True
  end.

(** The calls of a run that ends at a failed login: logins and the fatal
    log line. *)
Definition login_or_fatal (ev : Event) : bool :=
  match ev with
  | EvRun cmd => is_login_cmd cmd
  | EvFatal _ => true
  | _ => false
  end.

(** ** Sample runs *)

Definition ex_redis : HelmChart :=
  {| Name := "redis"; Project := "db"; Version := "1.0.0" |}.
Definition ex_nginx : HelmChart :=
  {| Name := "nginx"; Project := "web"; Version := "2.3.1" |}.
(** Same name and version as [ex_redis], another project. *)
Definition ex_redis_cache : HelmChart :=
  {| Name := "redis"; Project := "cache"; Version := "1.0.0" |}.

Definition ex_cfg : Config :=
  {| sourceHarborURL := "https://old.example.org";
     sourceHarborUsername := "reader"; sourceHarborPassword := "r3ad";
     destinationHarborURL := "new.example.org";
     destinationHarborUsername := "writer"; destinationHarborPassword := "wr1te";
     destPath := "/charts"; projectsToMigrate := ["db"; "web"] |}.

Definition ex_world : World := {| files := ∅; trace := [] |}.

Definition ex_body : list Byte.byte := [Byte.x1f; Byte.x8b; Byte.x08].

(** An outside world given by: the registries that accept the login, the
    status of every URL, whether pushes and removals succeed. *)
Definition ex_env (login_ok : string -> bool) (status : string -> Z)
    (push_ok remove_ok : bool) : Env :=
  {| cmd_run := fun _ cmd =>
       if is_login_cmd cmd
       then if login_ok (List.last (Args cmd) "") then None
            else Some ("exit status 1", "Error: unauthorized")
       else if push_ok then None
            else Some ("exit status 1", "Error: unexpected status 500");
     new_request_fails := fun _ _ => None;
     client_do := fun _ _ req =>
       inr {| StatusCode := status (URL req); Body := inr ex_body |};
     write_file := fun _ _ _ _ => WriteOk;
     remove_fails := fun _ _ =>
       if remove_ok then None else Some "permission denied";
     list_charts := fun _ => inr [ex_redis; ex_nginx] |}.

Definition ex_env_ok : Env := ex_env (fun _ => true) (fun _ => 200) true true.

Definition ex_env_nginx_404 : Env :=
  ex_env (fun _ => true)
    (fun url => if String.eqb url (sourceURL ex_cfg ex_nginx) then 404 else 200)
    true true.

Definition ex_env_push_fails : Env :=
  ex_env (fun _ => true) (fun _ => 200) false true.

Definition ex_env_remove_fails : Env :=
  ex_env (fun _ => true) (fun _ => 200) true false.

Definition ex_env_dest_login_fails : Env :=
  ex_env (fun registry => String.eqb registry (sourceHarborURL ex_cfg))
    (fun _ => 200) true true.

(** An outside world like [ex_env_ok] in which the listing of the charts
    fails. *)
Definition ex_env_listing_fails : Env :=
  {| cmd_run := cmd_run ex_env_ok;
     new_request_fails := new_request_fails ex_env_ok;
     client_do := client_do ex_env_ok;
     write_file := write_file ex_env_ok;
     remove_fails := remove_fails ex_env_ok;
     list_charts := fun _ => inl "503 Service Unavailable" |}.

(** ** Further observations *)

(** The command [helmLogin] runs. *)
Definition login_Command (registry username password : string) : Cmd :=
  exec_Command helmBinaryPath
    ["registry"; "login"; "--username"; username; "--password"; password;
     registry].

(** The login commands run, in order. *)
Definition login_cmds (evs : list Event) : list Cmd :=
  omap (fun ev => match ev with
                  | EvRun cmd => if is_login_cmd cmd then Some cmd else None
                  | _ => None
                  end) evs.

(** The subprocesses run, in order. *)
Definition commands (evs : list Event) : list Cmd :=
  omap (fun ev => match ev with EvRun cmd => Some cmd | _ => None end) evs.

(** The calls on the progress bar, in order. *)
Definition bar_calls (evs : list Event) : list Event :=
  omap (fun ev => match ev with
                  | EvBarDefault _ | EvBarAdd _ => Some ev
                  | _ => None
                  end) evs.

(** How often a response body was closed. *)
Definition closes (evs : list Event) : nat :=
  length (omap (fun ev => match ev with EvBodyClose => Some tt | _ => None end) evs).

(** How often a request was sent. *)
Definition sends (evs : list Event) : nat :=
  length (omap (fun ev => match ev with EvDo _ req => Some req | _ => None end) evs).

(** The calls [main] makes itself, outside the transfers. *)
Definition main_event (ev : Event) : bool :=
  match ev with
  | EvRun cmd => is_login_cmd cmd
  | EvListCharts | EvFatal _ | EvPrintf _ _ | EvBarDefault _ => true
  | _ => false
  end.

(** How a request is sent and a file written in this program: a GET with
    the credentials of the source, by a client with the timeout; a write
    with the private file mode. *)
Definition sent_as_configured (cfg : Config) (ev : Event) : Prop :=
  match ev with
  | EvDo c req =>
      Method req = http_MethodGet /\
      BasicAuth req = Some (sourceHarborUsername cfg, sourceHarborPassword cfg) /\
      Timeout c = timeout
  | EvWriteFile _ _ perm => perm = fileMode
  | _ => True
  end.

(** The errors a transfer can report. *)
Definition transfer_error (e : error) : Prop :=
  match e with
  | Wrap m (ErrStatus code) =>
      m = "Failed to pull chart from source" /\ code <> http_StatusOK
  | Wrap m (ErrNewRequest _) | Wrap m (ErrTransport _)
  | Wrap m (ErrReadBody _) | Wrap m (ErrWriteFile _) =>
      m = "Failed to pull chart from source"
  | Wrap m (Wrap m' (ErrExec _)) =>
      m = "Failed to push chart to destination" /\
      exists stdErr, m' = ("Failed to execute helm push: " ++ stdErr)%string
  | ErrRemove _ => True
  | _ => False
  end.

(** ** Reasoning about runs *)

Lemma emitted_app w w' evs : trace w' = trace w ++ evs -> emitted w w' = evs.
Proof. intros H. unfold emitted. rewrite H. apply drop_app_length. Qed.

Lemma emitted_refl w : emitted w w = [].
Proof. apply emitted_app. by rewrite app_nil_r. Qed.

Lemma emitted_trans w w1 w2 :
  trace w1 = trace w ++ emitted w w1 ->
  trace w2 = trace w1 ++ emitted w1 w2 ->
  trace w2 = trace w ++ emitted w w2 /\
  emitted w w2 = emitted w w1 ++ emitted w1 w2.
Proof.
  intros H1 H2.
  assert (H : trace w2 = trace w ++ (emitted w w1 ++ emitted w1 w2))
    by (rewrite app_assoc, <- H1; exact H2).
  rewrite (emitted_app _ _ _ H). by split.
Qed.

(** Running the straight-line part of the program: unfold it, split on
    every answer of the outside world, and read off the calls made. *)
Ltac unfold_prog :=
  unfold main, loop_body, migrateChartFromSourceToDestination,
    removeChartFile, pushChartToDestination, pullChartFromSource, helmLogin,
    getHarborChartmuseumCharts, log_Fatal, log_Println, log_Printf,
    os_Remove, os_WriteFile, Body_Close, io_ReadAll, client_Do,
    http_NewRequest, cmd_Run, bind, ret, emit, ask, set_files.

Ltac case_step :=
  match goal with
  | |- context [match ?x with _ => _ end] =>
      lazymatch x with
      | context [match _ with _ => _ end] => fail
      | _ => destruct x eqn:?
      end
  end.

Ltac read_trace :=
  cbn [trace fst snd files];
  repeat match goal with
  | |- context [emitted ?a ?b] =>
      erewrite (emitted_app a b)
        by (cbn [trace]; rewrite <- ?app_assoc; reflexivity)
  end;
  cbn [app].

Ltac run_prog :=
  unfold_prog; cbn [fst snd files trace];
  repeat (case_step; cbn [fst snd files trace]);
  read_trace.

(** The trace only grows: what a function leaves is what it found, then
    its own calls. *)
Lemma pullChartFromSource_grows E cfg hc w :
  let w' := snd (pullChartFromSource E cfg hc w) in
  trace w' = trace w ++ emitted w w'.
Proof. run_prog; by rewrite <- ?app_assoc. Qed.

Lemma migrateChart_grows E cfg hc w :
  let w' := snd (migrateChartFromSourceToDestination E cfg hc w) in
  trace w' = trace w ++ emitted w w'.
Proof. run_prog; by rewrite <- ?app_assoc. Qed.

Lemma loop_body_grows E cfg hc n w :
  let w' := snd (loop_body E cfg hc n w) in
  trace w' = trace w ++ emitted w w'.
Proof. run_prog; by rewrite <- ?app_assoc. Qed.

(** *** Go's int *)

Lemma int_wrap_in_int z : in_int (int_wrap z).
Proof.
  unfold in_int, int_wrap, max_int.
  pose proof (Z.mod_pos_bound (z + 2 ^ 63) (2 ^ 64) eq_refl). lia.
Qed.

Lemma int_wrap_id z : in_int z -> int_wrap z = z.
Proof.
  unfold in_int, int_wrap, max_int. intros H.
  rewrite Z.mod_small by lia. lia.
Qed.

Lemma int_wrap_add_l a b : int_wrap (int_wrap a + b) = int_wrap (a + b).
Proof.
  unfold int_wrap. f_equal.
  replace ((a + 2 ^ 63) mod 2 ^ 64 - 2 ^ 63 + b + 2 ^ 63)
    with ((a + 2 ^ 63) mod 2 ^ 64 + b) by lia.
  rewrite Zplus_mod_idemp_l. f_equal. lia.
Qed.

(** *** One turn of the loop *)

Section Turn.

Context (E : Env) (cfg : Config) (hc : HelmChart) (w : World).

Lemma loop_body_world n : snd (loop_body E cfg hc n w) = snd (loop_body E cfg hc 0 w).
Proof. unfold turn_result. run_prog; reflexivity. Qed.

Lemma loop_body_count n :
  fst (loop_body E cfg hc n w) =
    match turn_result E cfg hc w with
    | Some _ => int_wrap (n + 1)
    | None => n
    end.
Proof. unfold turn_result. run_prog; reflexivity. Qed.

Lemma loop_body_requests n :
  requests (emitted w (snd (loop_body E cfg hc n w))) =
    [(http_MethodGet, sourceURL cfg hc)].
Proof. run_prog; reflexivity. Qed.

Lemma loop_body_diagnostics n :
  diagnostics (emitted w (snd (loop_body E cfg hc n w))) =
    match turn_result E cfg hc w with
    | Some e => [Wrap "Failed to migrate Helm chart" e]
    | None => []
    end.
Proof. unfold turn_result. run_prog; reflexivity. Qed.

Lemma loop_body_printed n :
  printed (emitted w (snd (loop_body E cfg hc n w))) = [].
Proof. run_prog; reflexivity. Qed.

End Turn.

(** *** The loop *)

Lemma failures_cons hc r outs :
  failures ((hc, r) :: outs) =
    match r with Some e => e :: failures outs | None => failures outs end.
Proof. by destruct r. Qed.

Lemma successes_cons hc r outs :
  successes ((hc, r) :: outs) =
    match r with Some _ => successes outs | None => hc :: successes outs end.
Proof. by destruct r. Qed.

Lemma main_loop_cons E cfg hc rest n w :
  main_loop E cfg (hc :: rest) n w =
    main_loop E cfg rest (fst (loop_body E cfg hc n w)) (snd (loop_body E cfg hc n w)).
Proof.
  cbn [main_loop]. unfold bind at 1.
  by destruct (loop_body E cfg hc n w).
Qed.

Lemma main_loop_grows E cfg charts : forall n w,
  let w' := snd (main_loop E cfg charts n w) in
  trace w' = trace w ++ emitted w w'.
Proof.
  induction charts as [|hc rest IH]; intros n w.
  - cbn. by rewrite emitted_refl, app_nil_r.
  - cbn zeta. rewrite main_loop_cons.
    eapply emitted_trans; [apply loop_body_grows | apply IH].
Qed.

Lemma main_loop_emitted E cfg hc rest n w :
  let w1 := snd (loop_body E cfg hc n w) in
  emitted w (snd (main_loop E cfg (hc :: rest) n w)) =
    emitted w w1 ++
    emitted w1 (snd (main_loop E cfg rest (fst (loop_body E cfg hc n w)) w1)).
Proof.
  cbn zeta. rewrite main_loop_cons.
  eapply emitted_trans; [apply loop_body_grows | apply main_loop_grows].
Qed.

Lemma main_loop_world E cfg charts : forall n w,
  snd (main_loop E cfg charts n w) = snd (main_loop E cfg charts 0 w).
Proof.
  induction charts as [|hc rest IH]; intros n w; [reflexivity|].
  rewrite !main_loop_cons, (loop_body_world E cfg hc w n).
  rewrite IH. symmetry. apply IH.
Qed.

Lemma attempts_fst E cfg charts : forall w, map fst (attempts E cfg charts w) = charts.
Proof.
  induction charts as [|hc rest IH]; intros w; [reflexivity|].
  cbn [attempts map fst]. by rewrite IH.
Qed.

Lemma main_loop_requests E cfg charts : forall n w,
  requests (emitted w (snd (main_loop E cfg charts n w))) =
    map (fun hc => (http_MethodGet, sourceURL cfg hc)) charts.
Proof.
  induction charts as [|hc rest IH]; intros n w.
  - cbn. by rewrite emitted_refl.
  - rewrite main_loop_emitted. unfold requests in *.
    rewrite omap_app, IH. fold (requests (emitted w (snd (loop_body E cfg hc n w)))).
    by rewrite loop_body_requests.
Qed.

Lemma main_loop_diagnostics E cfg charts : forall n w,
  diagnostics (emitted w (snd (main_loop E cfg charts n w))) =
    map (Wrap "Failed to migrate Helm chart") (failures (attempts E cfg charts w)).
Proof.
  induction charts as [|hc rest IH]; intros n w.
  - cbn. by rewrite emitted_refl.
  - rewrite main_loop_emitted. unfold diagnostics in *.
    rewrite omap_app, IH, (loop_body_world E cfg hc w n).
    fold (diagnostics (emitted w (snd (loop_body E cfg hc n w)))).
    rewrite loop_body_diagnostics.
    cbn [attempts]. rewrite failures_cons.
    by destruct (turn_result E cfg hc w).
Qed.

Lemma main_loop_printed E cfg charts : forall n w,
  printed (emitted w (snd (main_loop E cfg charts n w))) = [].
Proof.
  induction charts as [|hc rest IH]; intros n w.
  - cbn. by rewrite emitted_refl.
  - rewrite main_loop_emitted. unfold printed in *.
    rewrite omap_app, IH.
    fold (printed (emitted w (snd (loop_body E cfg hc n w)))).
    by rewrite loop_body_printed.
Qed.

Lemma main_loop_count E cfg charts : forall n w,
  in_int n ->
  fst (main_loop E cfg charts n w) =
    int_wrap (n + Z.of_nat (length (failures (attempts E cfg charts w)))).
Proof.
  induction charts as [|hc rest IH]; intros n w Hn.
  - cbn. rewrite Z.add_0_r. symmetry. by apply int_wrap_id.
  - rewrite main_loop_cons, IH, loop_body_count, (loop_body_world E cfg hc w n).
    + cbn [attempts]. rewrite failures_cons.
      destruct (turn_result E cfg hc w); cbn [length].
      * rewrite int_wrap_add_l. f_equal. lia.
      * reflexivity.
    + rewrite loop_body_count. destruct (turn_result E cfg hc w); [|done].
      apply int_wrap_in_int.
Qed.

Lemma attempts_length E cfg charts w :
  (length (failures (attempts E cfg charts w))
   + length (successes (attempts E cfg charts w)) = length charts)%nat.
Proof.
  revert w. induction charts as [|hc rest IH]; intros w; [reflexivity|].
  cbn [attempts]. rewrite failures_cons, successes_cons.
  specialize (IH (snd (loop_body E cfg hc 0 w))).
  destruct (turn_result E cfg hc w); cbn [length]; lia.
Qed.

(** ** The transfer of one chart *)

Lemma transfer_steps_in_order E cfg hc w :
  steps (emitted w (snd (migrateChartFromSourceToDestination E cfg hc w)))
    `prefix_of` transfer_order.
Proof. run_prog; by eexists. Qed.

(** C1, as the program has it: cleanup runs once exactly when fetch,
    persist and push have all succeeded, on the staged file, and then its
    result is the result of the transfer; after a failed fetch or a failed
    push there is no cleanup and the transfer reports that failure. *)
Theorem C1_cleanup_only_after_successful_push E cfg hc w :
  let p := pullChartFromSource E cfg hc w in
  let q := pushChartToDestination E cfg hc (snd p) in
  let c := removeChartFile E hc (snd q) in
  let r := migrateChartFromSourceToDestination E cfg hc w in
  let cleanups := attempts_of Cleanup (emitted w (snd r)) in
  match fst p, fst q with
  | None, None =>
      cleanups = 1%nat /\ r = c /\
      emitted (snd q) (snd c) = [EvRemove (ChartFileName hc)] /\
      steps (emitted w (snd r)) = transfer_order
  | None, Some e =>
      cleanups = 0%nat /\
      fst r = Some (Wrap "Failed to push chart to destination" e)
  | Some e, _ =>
      cleanups = 0%nat /\
      fst r = Some (Wrap "Failed to pull chart from source" e)
  end.
Proof. cbv zeta. run_prog; by repeat split. Qed.

(** C1 as stated fails twice.  When the push fails after a successful
    fetch, cleanup is not attempted at all; when fetch, persist and push
    succeed and the removal fails, the transfer reports a failure. *)
Lemma C1_counterexample :
  (let p := pullChartFromSource ex_env_push_fails ex_cfg ex_redis ex_world in
   let q := pushChartToDestination ex_env_push_fails ex_cfg ex_redis (snd p) in
   let r := migrateChartFromSourceToDestination ex_env_push_fails ex_cfg ex_redis ex_world in
   fst p = None /\ fst q <> None /\
   attempts_of Push (emitted ex_world (snd r)) = 1%nat /\
   attempts_of Cleanup (emitted ex_world (snd r)) <> 1%nat) /\
  (let p := pullChartFromSource ex_env_remove_fails ex_cfg ex_redis ex_world in
   let q := pushChartToDestination ex_env_remove_fails ex_cfg ex_redis (snd p) in
   let r := migrateChartFromSourceToDestination ex_env_remove_fails ex_cfg ex_redis ex_world in
   fst p = None /\ fst q = None /\
   fst r = Some (ErrRemove "permission denied")).
Proof. vm_compute. repeat split; discriminate. Qed.

(** C5: the steps of a transfer come in the order fetch, persist, push,
    cleanup; and when the fetch step fails (whatever the cause, a failed
    write included) the transfer stops there with that error: the push is
    not attempted, nor the cleanup, and nothing happens after the failing
    call but the deferred close of the response body. *)
Theorem C5_no_push_after_failed_fetch E cfg hc w :
  let p := pullChartFromSource E cfg hc w in
  let r := migrateChartFromSourceToDestination E cfg hc w in
  steps (emitted w (snd r)) `prefix_of` transfer_order /\
  forall e, fst p = Some e ->
    r = (Some (Wrap "Failed to pull chart from source" e), snd p) /\
    attempts_of Push (emitted w (snd r)) = 0%nat /\
    attempts_of Cleanup (emitted w (snd r)) = 0%nat /\
    Forall (fun ev => forall cmd, ev <> EvRun cmd) (emitted w (snd r)).
Proof.
  cbv zeta. split; [apply transfer_steps_in_order|].
  run_prog; intros e0 He; try discriminate He; simplify_eq;
    (split; [by rewrite <- ?app_assoc|]); repeat split;
    repeat constructor; discriminate.
Qed.

(** The theorem at a transfer whose fetch gets status 404. *)
Lemma C5_witness :
  fst (pullChartFromSource ex_env_nginx_404 ex_cfg ex_nginx ex_world)
    = Some (ErrStatus 404) /\
  attempts_of Push
    (emitted ex_world
       (snd (migrateChartFromSourceToDestination ex_env_nginx_404 ex_cfg
               ex_nginx ex_world))) = 0%nat.
Proof.
  split; [reflexivity|].
  apply (proj2 (C5_no_push_after_failed_fetch ex_env_nginx_404 ex_cfg ex_nginx
                  ex_world) (ErrStatus 404)).
  reflexivity.
Defined.

(** C10: when the fetch returns an error of the fetch proper (the request
    could not be built, the transport failed, the status was not 200, the
    body could not be read), the working directory is as before and no
    write was attempted; the write comes after every call of the fetch. *)
Theorem C10_fetch_error_leaves_staging_unchanged E cfg hc w e :
  fst (pullChartFromSource E cfg hc w) = Some e ->
  fetch_error e = true ->
  let w' := snd (pullChartFromSource E cfg hc w) in
  files w' = files w /\
  attempts_of Persist (emitted w w') = 0%nat /\
  steps (emitted w w') `prefix_of` [Fetch; Fetch; Fetch].
Proof.
  cbv zeta. revert e.
  run_prog; intros e0 He Hk; simplify_eq; try discriminate Hk;
    repeat split; by eexists.
Qed.

(** The theorem at a fetch that gets status 404. *)
Lemma C10_witness :
  let w' := snd (pullChartFromSource ex_env_nginx_404 ex_cfg ex_nginx ex_world) in
  files w' = files ex_world /\
  attempts_of Persist (emitted ex_world w') = 0%nat /\
  steps (emitted ex_world w') `prefix_of` [Fetch; Fetch; Fetch].
Proof.
  apply (C10_fetch_error_leaves_staging_unchanged ex_env_nginx_404 ex_cfg
           ex_nginx ex_world (ErrStatus 404)); reflexivity.
Defined.



(** C9: the project plays no part in the file name.  Two charts with the
    same name and version in different projects have the same file name,
    so a successful fetch of the second writes its bytes to the very file
    the first is staged in. *)
Theorem C9_file_name_ignores_project a b :
  Name a = Name b ->
  Version a = Version b ->
  Project a <> Project b ->
  ChartFileName a = ChartFileName b /\
  forall E cfg w,
    let w' := snd (pullChartFromSource E cfg b w) in
    fst (pullChartFromSource E cfg b w) = None ->
    exists data,
      EvWriteFile (ChartFileName a) data fileMode ∈ emitted w w' /\
      files w' !! ChartFileName a = Some data.
Proof.
  intros Hn Hv _.
  assert (Hf : ChartFileName a = ChartFileName b)
    by (unfold ChartFileName; by rewrite Hn, Hv).
  split; [exact Hf|]. intros E cfg w. cbv zeta. rewrite Hf.
  run_prog; intros He; try discriminate He.
  eexists. split; [|apply lookup_insert_eq].
  set_solver.
Qed.

(** The theorem at two charts that differ in their project only, fetched
    one after the other. *)
Lemma C9_witness :
  ChartFileName ex_redis = ChartFileName ex_redis_cache /\
  exists data,
    files (snd (pullChartFromSource ex_env_ok ex_cfg ex_redis_cache
                  (snd (pullChartFromSource ex_env_ok ex_cfg ex_redis ex_world))))
      !! ChartFileName ex_redis = Some data.
Proof.
  destruct (C9_file_name_ignores_project ex_redis ex_redis_cache
              eq_refl eq_refl ltac:(discriminate)) as [Hf Hw].
  split; [exact Hf|].
  destruct (Hw ex_env_ok ex_cfg
              (snd (pullChartFromSource ex_env_ok ex_cfg ex_redis ex_world))
              eq_refl) as [data [_ Hd]].
  by exists data.
Defined.

(** ** The whole run *)

Lemma main_migrate_run E cfg charts w :
  let l := main_loop E cfg charts 0 (loop_start charts w) in
  let r := main_migrate E cfg charts w in
  fst r = 0%Z /\
  files (snd r) = files (snd l) /\
  trace (snd r) = trace w ++ emitted w (snd r) /\
  emitted w (snd r) =
    [EvPrintf msg_to_migrate (len charts); EvBarDefault (len charts)]
      ++ emitted (loop_start charts w) (snd l)
      ++ [EvPrintf msg_migrated (int_wrap (len charts - fst l))].
Proof.
  cbv zeta.
  pose proof (main_loop_grows E cfg charts 0 (loop_start charts w)) as Hg.
  cbv zeta in Hg. revert Hg.
  unfold main_migrate, loop_start, log_Printf, bind, ret, emit.
  cbn [fst snd files trace].
  destruct (main_loop E cfg charts 0 _) as [n w1]. cbn [fst snd files trace].
  intros Hg.
  assert (Ht : trace w1 ++ [EvPrintf msg_migrated (int_wrap (len charts - n))] =
               trace w ++ [EvPrintf msg_to_migrate (len charts);
                           EvBarDefault (len charts)]
                 ++ emitted {| files := files w;
                               trace := (trace w ++ [EvPrintf msg_to_migrate (len charts)])
                                          ++ [EvBarDefault (len charts)] |} w1
                 ++ [EvPrintf msg_migrated (int_wrap (len charts - n))]).
  { rewrite Hg at 1. cbn [trace]. by rewrite <- !app_assoc. }
  rewrite (emitted_app _ {| files := files w1 |} _ Ht).
  by repeat split.
Qed.

Lemma loop_body_limits E cfg hc n w :
  Forall limit_as_made (emitted w (snd (loop_body E cfg hc n w))).
Proof. run_prog; repeat constructor. Qed.

Lemma main_loop_limits E cfg charts : forall n w,
  Forall limit_as_made (emitted w (snd (main_loop E cfg charts n w))).
Proof.
  induction charts as [|hc rest IH]; intros n w.
  - cbn. by rewrite emitted_refl.
  - rewrite main_loop_emitted. apply Forall_app.
    split; [apply loop_body_limits | apply IH].
Qed.

Lemma main_migrate_limits E cfg charts w :
  Forall limit_as_made (emitted w (snd (main_migrate E cfg charts w))).
Proof.
  destruct (main_migrate_run E cfg charts w) as (_ & _ & _ & ->).
  repeat (apply Forall_app; split); try (repeat constructor).
  apply main_loop_limits.
Qed.

(** What [main] is once both logins and the listing have succeeded. *)
Lemma main_after_discovery E cfg w charts :
  let l1 := helmLogin E (sourceHarborURL cfg) (sourceHarborUsername cfg)
              (sourceHarborPassword cfg) w in
  let l2 := helmLogin E (destinationHarborURL cfg) (destinationHarborUsername cfg)
              (destinationHarborPassword cfg) (snd l1) in
  let d := getHarborChartmuseumCharts E (snd l2) in
  fst l1 = None -> fst l2 = None -> fst d = inr charts ->
  main E cfg w = main_migrate E cfg charts (snd d) /\
  trace (snd d) = trace w ++ emitted w (snd d) /\
  requests (emitted w (snd d)) = [] /\
  diagnostics (emitted w (snd d)) = [] /\
  printed (emitted w (snd d)) = [].
Proof.
  cbv zeta. run_prog; intros H1 H2 H3; simplify_eq; repeat split.
  by rewrite <- ?app_assoc.
Qed.

(** C2: whatever the outside world answers, the loop starts a transfer for
    every chart of the list, in the order of the list (the requests built
    are those of the charts, one each, in order); every failed transfer
    adds one to [errorCount] and logs its error, in order, and the loop
    goes on with the next chart. *)
Theorem C2_every_chart_attempted_in_order E cfg charts w :
  let r := main_loop E cfg charts 0 w in
  let outs := attempts E cfg charts w in
  map fst outs = charts /\
  requests (emitted w (snd r)) =
    map (fun hc => (http_MethodGet, sourceURL cfg hc)) charts /\
  fst r = int_wrap (Z.of_nat (length (failures outs))) /\
  diagnostics (emitted w (snd r)) =
    map (Wrap "Failed to migrate Helm chart") (failures outs).
Proof.
  cbv zeta. split; [apply attempts_fst|].
  split; [apply main_loop_requests|].
  split; [|apply main_loop_diagnostics].
  rewrite main_loop_count; [reflexivity|].
  unfold in_int, max_int. lia.
Qed.

(** C3: for a list that is not empty (and as long as a Go slice can be),
    the run logs the number of charts and, at the end, the number of
    charts migrated; with [errorCount] the number of failed transfers, the
    number logged at the end is the number of successful transfers, and
    the two add up to the number of charts. *)
Theorem C3_counts_add_up E cfg charts w :
  charts <> [] ->
  (len charts <= max_int)%Z ->
  let outs := attempts E cfg charts (loop_start charts w) in
  let totalCount := len charts in
  let failureCount := fst (main_loop E cfg charts 0 (loop_start charts w)) in
  let successCount := int_wrap (totalCount - failureCount) in
  printed (emitted w (snd (main_migrate E cfg charts w))) =
    [(msg_to_migrate, totalCount); (msg_migrated, successCount)] /\
  failureCount = Z.of_nat (length (failures outs)) /\
  successCount = Z.of_nat (length (successes outs)) /\
  (successCount + failureCount = totalCount)%Z.
Proof.
  intros _ Hlen. cbv zeta.
  pose proof (attempts_length E cfg charts (loop_start charts w)) as Hsum.
  assert (Hf : fst (main_loop E cfg charts 0 (loop_start charts w)) =
               Z.of_nat (length (failures (attempts E cfg charts (loop_start charts w))))).
  { rewrite main_loop_count by (unfold in_int, max_int; lia).
    apply int_wrap_id. unfold in_int, len, max_int in *. lia. }
  assert (Hs : int_wrap (len charts - fst (main_loop E cfg charts 0 (loop_start charts w))) =
               Z.of_nat (length (successes (attempts E cfg charts (loop_start charts w))))).
  { rewrite Hf, int_wrap_id; unfold in_int, len, max_int in *; lia. }
  split; [|split; [exact Hf|split; [exact Hs|]]].
  - destruct (main_migrate_run E cfg charts w) as (_ & _ & _ & ->).
    unfold printed. rewrite !omap_app.
    fold (printed (emitted (loop_start charts w)
                     (snd (main_loop E cfg charts 0 (loop_start charts w))))).
    by rewrite main_loop_printed.
  - rewrite Hs, Hf. unfold len. lia.
Qed.

(** The theorem at a run of two charts, the second of which fails. *)
Lemma C3_witness :
  let failureCount :=
    fst (main_loop ex_env_nginx_404 ex_cfg [ex_redis; ex_nginx] 0
           (loop_start [ex_redis; ex_nginx] ex_world)) in
  let successCount := int_wrap (2 - failureCount) in
  failureCount = 1%Z /\ (successCount + failureCount = 2)%Z.
Proof.
  cbv zeta. split; [reflexivity|].
  apply (C3_counts_add_up ex_env_nginx_404 ex_cfg [ex_redis; ex_nginx] ex_world).
  - discriminate.
  - vm_compute. discriminate.
Defined.

(** C4, as the program has it: when both logins and the listing succeed,
    the run goes through the whole list (it builds the request of every
    chart, in order), logs one error for each failed transfer, and the
    process ends with status 0 however many transfers failed. *)
Theorem C4_exit_status_zero_after_discovery E cfg w charts :
  let l1 := helmLogin E (sourceHarborURL cfg) (sourceHarborUsername cfg)
              (sourceHarborPassword cfg) w in
  let l2 := helmLogin E (destinationHarborURL cfg) (destinationHarborUsername cfg)
              (destinationHarborPassword cfg) (snd l1) in
  let d := getHarborChartmuseumCharts E (snd l2) in
  fst l1 = None -> fst l2 = None -> fst d = inr charts ->
  let r := main E cfg w in
  let outs := attempts E cfg charts (loop_start charts (snd d)) in
  fst r = 0%Z /\
  requests (emitted w (snd r)) =
    map (fun hc => (http_MethodGet, sourceURL cfg hc)) charts /\
  diagnostics (emitted w (snd r)) =
    map (Wrap "Failed to migrate Helm chart") (failures outs).
Proof.
  cbv zeta. intros H1 H2 H3.
  destruct (main_after_discovery E cfg w charts H1 H2 H3)
    as (-> & Hg & Hrq & Hdg & _).
  set (w3 := snd (getHarborChartmuseumCharts E _)) in *.
  destruct (main_migrate_run E cfg charts w3) as (Hc & _ & Hg' & Hev).
  destruct (emitted_trans _ _ _ Hg Hg') as [_ ->].
  split; [exact Hc|].
  unfold requests, diagnostics in *. rewrite !omap_app, Hrq, Hdg, Hev, !omap_app.
  fold (requests (emitted (loop_start charts w3)
                    (snd (main_loop E cfg charts 0 (loop_start charts w3))))).
  fold (diagnostics (emitted (loop_start charts w3)
                       (snd (main_loop E cfg charts 0 (loop_start charts w3))))).
  rewrite main_loop_requests, main_loop_diagnostics.
  cbn [omap list_omap app]. by rewrite !app_nil_r.
Qed.

(** The theorem at a run of two charts, the second of which fails. *)
Lemma C4_witness :
  fst (main ex_env_nginx_404 ex_cfg ex_world) = 0%Z /\
  requests (emitted ex_world (snd (main ex_env_nginx_404 ex_cfg ex_world))) =
    [("GET", "https://old.example.org/chartrepo/db/charts/redis-1.0.0.tgz");
     ("GET", "https://old.example.org/chartrepo/web/charts/nginx-2.3.1.tgz")].
Proof.
  destruct (C4_exit_status_zero_after_discovery ex_env_nginx_404 ex_cfg ex_world
              [ex_redis; ex_nginx] eq_refl eq_refl eq_refl) as (Hc & Hr & _).
  split; [exact Hc | exact Hr].
Defined.

(** C4 as stated fails: a run in which every chart is migrated and a run
    in which one of two charts fails both pass the logins and the listing,
    and both end with the same exit status. *)
Lemma C4_counterexample :
  let ok := main ex_env_ok ex_cfg ex_world in
  let ko := main ex_env_nginx_404 ex_cfg ex_world in
  printed (emitted ex_world (snd ok)) = [(msg_to_migrate, 2%Z); (msg_migrated, 2%Z)] /\
  diagnostics (emitted ex_world (snd ok)) = [] /\
  printed (emitted ex_world (snd ko)) = [(msg_to_migrate, 2%Z); (msg_migrated, 1%Z)] /\
  diagnostics (emitted ex_world (snd ko)) =
    [Wrap "Failed to migrate Helm chart"
       (Wrap "Failed to pull chart from source" (ErrStatus 404))] /\
  fst ok = fst ko.
Proof. vm_compute. by repeat split. Qed.

(** C6: when the login to the source or the login to the destination
    fails, the process ends with status 1 having done nothing but logins
    and the fatal log line: the charts are not listed, no request is built
    or sent, nothing is pushed, and the working directory is as it was. *)
Theorem C6_failed_login_aborts_the_run E cfg w :
  let l1 := helmLogin E (sourceHarborURL cfg) (sourceHarborUsername cfg)
              (sourceHarborPassword cfg) w in
  let l2 := helmLogin E (destinationHarborURL cfg) (destinationHarborUsername cfg)
              (destinationHarborPassword cfg) (snd l1) in
  fst l1 <> None \/ fst l2 <> None ->
  let r := main E cfg w in
  fst r = 1%Z /\
  files (snd r) = files w /\
  Forall (fun ev => login_or_fatal ev = true) (emitted w (snd r)) /\
  (EvListCharts ∉ emitted w (snd r)) /\
  steps (emitted w (snd r)) = [].
Proof.
  cbv zeta. run_prog; intros [H|H]; try congruence;
    (split; [reflexivity|]); (split; [reflexivity|]);
    (split; [by repeat constructor|]); (split; [|reflexivity]);
    intros Hin;
    repeat (apply elem_of_cons in Hin as [Hin|Hin]; [discriminate Hin|]);
    by apply elem_of_nil in Hin.
Qed.

(** The theorem at a run where the destination refuses the login. *)
Lemma C6_witness :
  let r := main ex_env_dest_login_fails ex_cfg ex_world in
  fst r = 1%Z /\
  files (snd r) = files ex_world /\
  Forall (fun ev => login_or_fatal ev = true) (emitted ex_world (snd r)) /\
  (EvListCharts ∉ emitted ex_world (snd r)) /\
  steps (emitted ex_world (snd r)) = [].
Proof.
  apply (C6_failed_login_aborts_the_run ex_env_dest_login_fails ex_cfg ex_world).
  right. vm_compute. discriminate.
Defined.

(** C8, as the program has it: in every run, every request is sent by a
    client whose timeout is 5 seconds, and every subprocess (the logins and
    the pushes) is run without any time limit. *)
Theorem C8_only_the_fetch_has_a_timeout E cfg w :
  timeout = (5 * time_Second)%Z /\
  Forall limit_as_made (emitted w (snd (main E cfg w))).
Proof.
  split; [reflexivity|].
  pose proof (main_migrate_limits E cfg) as Hm. revert Hm.
  run_prog; intros Hm; try (repeat constructor).
  match goal with
  | |- context [main_migrate E cfg ?l ?w3] =>
      specialize (Hm l w3);
      destruct (main_migrate_run E cfg l w3) as (_ & _ & Hg & _);
      assert (Hg0 : trace w3 = trace w ++ emitted w w3)
        by (read_trace; cbn [trace]; by rewrite <- ?app_assoc);
      destruct (emitted_trans _ _ _ Hg0 Hg) as [_ ->];
      apply Forall_app; split; [|exact Hm]
  end.
  read_trace. repeat constructor.
Qed.

(** C8 as stated fails: in a run where everything succeeds, the network
    calls are, in order, two logins, then a fetch and a push for each of
    the two charts; only the fetches have a time limit.  So the login to
    the source is a network call of the run made without a timeout. *)
Lemma C8_counterexample :
  let evs := emitted ex_world (snd (main ex_env_ok ex_cfg ex_world)) in
  let login :=
    EvRun (exec_Command helmBinaryPath
             ["registry"; "login"; "--username"; "reader"; "--password"; "r3ad";
              "https://old.example.org"]) in
  map (fun ev => (is_step Fetch ev, time_limit ev))
    (filter (fun ev => network_call ev = true) evs) =
    [(false, None); (false, None);
     (true, Some 5000000000%Z); (false, None);
     (true, Some 5000000000%Z); (false, None)] /\
  login ∈ evs /\ network_call login = true /\ time_limit login = None.
Proof.
  cbv zeta. split; [vm_compute; reflexivity|].
  split; [|split; reflexivity].
  vm_compute. constructor.
Qed.

(** ** Further properties of the program *)

(** *** File names *)

Lemma list_ascii_of_string_app (a b : string) :
  list_ascii_of_string (a ++ b)%string =
    list_ascii_of_string a ++ list_ascii_of_string b.
Proof.
  induction a as [|c a IH]; [reflexivity|].
  change (c :: list_ascii_of_string (a ++ b)%string =
          c :: list_ascii_of_string a ++ list_ascii_of_string b).
  by rewrite IH.
Qed.

Lemma list_ascii_of_string_inj (a b : string) :
  list_ascii_of_string a = list_ascii_of_string b -> a = b.
Proof.
  intros H. rewrite <- (string_of_list_ascii_of_string a),
    <- (string_of_list_ascii_of_string b). by rewrite H.
Qed.

Lemma string_app_inv_tail (a b c : string) :
  (a ++ c)%string = (b ++ c)%string -> a = b.
Proof.
  intros H. apply list_ascii_of_string_inj.
  apply (f_equal list_ascii_of_string) in H.
  rewrite !list_ascii_of_string_app in H. by apply app_inv_tail in H.
Qed.

Lemma string_app_inv_head (a b c : string) :
  (a ++ b)%string = (a ++ c)%string -> b = c.
Proof.
  intros H. apply list_ascii_of_string_inj.
  apply (f_equal list_ascii_of_string) in H.
  rewrite !list_ascii_of_string_app in H. by apply app_inv_head in H.
Qed.

Lemma string_app_assoc (a b c : string) :
  ((a ++ b) ++ c)%string = (a ++ b ++ c)%string.
Proof.
  induction a as [|x a IH]; [reflexivity|].
  change (String x ((a ++ b) ++ c) = String x (a ++ b ++ c))%string.
  by rewrite IH.
Qed.

(** X1: among charts of one name, the file name tells the version: two
    charts with the same name and the same file name have the same
    version. *)
Theorem ChartFileName_inj_version a b :
  Name a = Name b ->
  ChartFileName a = ChartFileName b ->
  Version a = Version b.
Proof.
  unfold ChartFileName. intros -> H.
  apply string_app_inv_head, string_app_inv_head in H.
  by apply string_app_inv_tail in H.
Qed.

Lemma ChartFileName_inj_version_witness :
  Version ex_redis = Version ex_redis_cache.
Proof.
  apply (ChartFileName_inj_version ex_redis ex_redis_cache); reflexivity.
Defined.

(** X2: the file name does not tell name and version apart: for all
    strings, the chart named [n-v1] in version [v2] and the chart named
    [n] in version [v1-v2] have the same file name, whatever their
    projects. *)
Theorem ChartFileName_dash_ambiguous n v1 v2 p q :
  ChartFileName {| Name := (n ++ "-" ++ v1)%string; Project := p; Version := v2 |} =
  ChartFileName {| Name := n; Project := q; Version := (v1 ++ "-" ++ v2)%string |}.
Proof.
  unfold ChartFileName. cbn [Name Version].
  by rewrite !string_app_assoc.
Qed.

(** X3: the URL a chart is fetched from tells the project: two charts
    with the same file name in different projects are fetched from
    different URLs.  So charts whose staged files collide still come from
    different places. *)
Theorem sourceURL_differs_by_project cfg a b :
  ChartFileName a = ChartFileName b ->
  Project a <> Project b ->
  sourceURL cfg a <> sourceURL cfg b.
Proof.
  unfold sourceURL. intros -> Hp H. apply Hp.
  apply string_app_inv_head, string_app_inv_head in H.
  by apply string_app_inv_tail in H.
Qed.

Lemma sourceURL_differs_by_project_witness :
  sourceURL ex_cfg ex_redis <> sourceURL ex_cfg ex_redis_cache.
Proof.
  apply (sourceURL_differs_by_project ex_cfg ex_redis ex_redis_cache);
    [reflexivity | discriminate].
Defined.

(** *** One transfer *)



(** X5: the response body is closed exactly when a response was received.
    A fetch whose request cannot be built sends nothing; one whose send
    fails closes nothing; one that gets a response closes its body once,
    as its last call, whatever happens in between (bad status, unreadable
    body, failed write). *)
Theorem pullChartFromSource_closes_body E cfg hc w :
  let evs := emitted w (snd (pullChartFromSource E cfg hc w)) in
  let req :=
    SetBasicAuth (sourceHarborUsername cfg) (sourceHarborPassword cfg)
      {| Method := http_MethodGet; URL := sourceURL cfg hc; BasicAuth := None |} in
  match new_request_fails E http_MethodGet (sourceURL cfg hc),
        client_do E (snd (emit (EvNewRequest http_MethodGet (sourceURL cfg hc)) w))
          {| Timeout := timeout |} req with
  | Some _, _ => sends evs = 0%nat /\ closes evs = 0%nat
  | None, inl _ => sends evs = 1%nat /\ closes evs = 0%nat
  | None, inr _ =>
      sends evs = 1%nat /\ closes evs = 1%nat /\ last evs = Some EvBodyClose
  end.
Proof. cbv zeta. run_prog; by repeat split. Qed.





(** X8: a failed push leaves the staged file behind.  When the fetch
    succeeded and the push failed, the transfer ends in the world the push
    left: the push changed no file, and the file named after the chart is
    still there with what the fetch wrote. *)
Theorem migrateChart_failed_push_keeps_file E cfg hc w e :
  let p := pullChartFromSource E cfg hc w in
  let q := pushChartToDestination E cfg hc (snd p) in
  fst p = None ->
  fst q = Some e ->
  let w' := snd (migrateChartFromSourceToDestination E cfg hc w) in
  w' = snd q /\
  files w' = files (snd p) /\
  is_Some (files w' !! ChartFileName hc).
Proof.
  cbv zeta. revert e. run_prog; intros e0 Hp Hq;
    try discriminate Hp; try discriminate Hq.
  repeat split. rewrite lookup_insert_eq. by eexists.
Qed.

Lemma migrateChart_failed_push_keeps_file_witness :
  is_Some
    (files (snd (migrateChartFromSourceToDestination ex_env_push_fails ex_cfg
                   ex_redis ex_world)) !! ChartFileName ex_redis).
Proof.
  apply (migrateChart_failed_push_keeps_file ex_env_push_fails ex_cfg ex_redis
           ex_world
           (Wrap "Failed to execute helm push: Error: unexpected status 500"
              (ErrExec "exit status 1")));
    reflexivity.
Defined.

(** X9: the errors of a transfer.  An error of the fetch is wrapped as a
    failure to pull, and a status error never carries 200; an error of the
    push is wrapped twice, with the standard error of helm in the inner
    message; an error of the removal is returned as it is, unwrapped. *)
Theorem migrateChart_error_shape E cfg hc w e :
  fst (migrateChartFromSourceToDestination E cfg hc w) = Some e ->
  transfer_error e.
Proof.
  revert e. run_prog; intros e0 He; simplify_eq; cbn; try done.
  - split; [done|]. intros Hc.
    match goal with H : negb _ = true |- _ => rewrite Hc in H; discriminate H end.
  - split; [done|]. by eexists.
Qed.

Lemma migrateChart_error_shape_witness :
  transfer_error (Wrap "Failed to pull chart from source" (ErrStatus 404)).
Proof.
  apply (migrateChart_error_shape ex_env_nginx_404 ex_cfg ex_nginx ex_world).
  reflexivity.
Defined.

(** X20: a transfer runs one subprocess, [helm push] of the file named
    after the chart to the OCI repository of its project under the
    destination (with the destination path appended), exactly when its
    fetch succeeded; when the fetch failed it runs none. *)
Theorem migrateChart_pushes_iff_fetched E cfg hc w :
  commands (emitted w (snd (migrateChartFromSourceToDestination E cfg hc w))) =
    match fst (pullChartFromSource E cfg hc w) with
    | None =>
        [{| Path := "helm";
            Args := ["push"; ChartFileName hc;
                     ("oci://" ++ destinationHarborURL cfg ++ "/" ++ Project hc
                        ++ destPath cfg)%string];
            Deadline := None |}]
    | Some _ => []
    end.
Proof. run_prog; reflexivity. Qed.

(** *** The loop *)

(** X10: the loop over a list made of two parts is the loop over the
    first part followed by the loop over the second, started with the
    error count and in the world the first left. *)
Theorem main_loop_app E cfg xs ys : forall n w,
  main_loop E cfg (xs ++ ys) n w =
    main_loop E cfg ys (fst (main_loop E cfg xs n w))
      (snd (main_loop E cfg xs n w)).
Proof.
  induction xs as [|hc xs IH]; intros n w; [reflexivity|].
  rewrite <- app_comm_cons, !main_loop_cons. apply IH.
Qed.

(** What every turn contributes to an observation that does not depend on
    the outcome of the turn. *)
Lemma main_loop_omap_turns {X} (f : Event -> option X) (g : HelmChart -> list X)
    E cfg :
  (forall hc n w, omap f (emitted w (snd (loop_body E cfg hc n w))) = g hc) ->
  forall charts n w,
    omap f (emitted w (snd (main_loop E cfg charts n w))) = flat_map g charts.
Proof.
  intros Hg. induction charts as [|hc rest IH]; intros n w.
  - cbn. by rewrite emitted_refl.
  - rewrite main_loop_emitted, omap_app, Hg, IH. reflexivity.
Qed.

Lemma loop_body_frame E cfg hc n w name :
  name <> ChartFileName hc ->
  files (snd (loop_body E cfg hc n w)) !! name = files w !! name.
Proof.
  intros Hne. run_prog;
    rewrite ?lookup_delete_ne, ?lookup_insert_ne by congruence; reflexivity.
Qed.

Lemma main_loop_frame E cfg charts name : forall n w,
  name ∉ map ChartFileName charts ->
  files (snd (main_loop E cfg charts n w)) !! name = files w !! name.
Proof.
  induction charts as [|hc rest IH]; intros n w Hn; [reflexivity|].
  cbn [map] in Hn. apply not_elem_of_cons in Hn as [Hne Hn].
  rewrite main_loop_cons, IH by exact Hn.
  by apply loop_body_frame.
Qed.

Lemma loop_body_success_unstages E cfg hc n w :
  turn_result E cfg hc w = None ->
  files (snd (loop_body E cfg hc n w)) !! ChartFileName hc = None.
Proof.
  unfold turn_result. run_prog; intros He; try discriminate He.
  by rewrite lookup_delete_eq.
Qed.

(** X11: a loop in which every transfer succeeds leaves none of the charts
    staged: at the end no file of the working directory bears the file
    name of a chart of the list. *)
Theorem main_loop_all_success_unstages E cfg charts : forall n w hc,
  failures (attempts E cfg charts w) = [] ->
  hc ∈ charts ->
  files (snd (main_loop E cfg charts n w)) !! ChartFileName hc = None.
Proof.
  induction charts as [|hc0 rest IH]; intros n w hc Hf Hin.
  - by apply elem_of_nil in Hin.
  - cbn [attempts] in Hf. rewrite failures_cons in Hf.
    destruct (turn_result E cfg hc0 w) eqn:Ht; [discriminate Hf|].
    rewrite main_loop_cons.
    destruct (decide (ChartFileName hc ∈ map ChartFileName rest)) as [Hr|Hr].
    + apply list_elem_of_fmap in Hr as (hc' & -> & Hin').
      apply IH; [|exact Hin'].
      by rewrite (loop_body_world E cfg hc0 w n).
    + rewrite main_loop_frame by exact Hr.
      apply elem_of_cons in Hin as [->|Hin'].
      * by apply loop_body_success_unstages.
      * exfalso. apply Hr. apply list_elem_of_fmap. by exists hc.
Qed.

Lemma main_loop_all_success_unstages_witness :
  files (snd (main_loop ex_env_ok ex_cfg [ex_redis; ex_nginx] 0 ex_world))
    !! ChartFileName ex_nginx = None.
Proof.
  apply (main_loop_all_success_unstages ex_env_ok ex_cfg [ex_redis; ex_nginx]
           0%Z ex_world ex_nginx); [reflexivity|].
  apply list_elem_of_further, list_elem_of_here.
Defined.

(** X12: within the length of a Go slice, the loop ends with an error
    count of zero exactly when no transfer failed. *)
Theorem main_loop_no_error_iff E cfg charts w :
  (len charts <= max_int)%Z ->
  fst (main_loop E cfg charts 0 w) = 0%Z <->
  failures (attempts E cfg charts w) = [].
Proof.
  intros Hlen.
  pose proof (attempts_length E cfg charts w) as Hsum.
  rewrite main_loop_count by (unfold in_int, max_int; lia).
  rewrite int_wrap_id by (unfold in_int, len, max_int in *; lia).
  destruct (failures (attempts E cfg charts w)); cbn [length]; split;
    intros H; try done; lia.
Qed.

Lemma main_loop_no_error_iff_witness :
  fst (main_loop ex_env_ok ex_cfg [ex_redis; ex_nginx] 0 ex_world) = 0%Z.
Proof.
  apply (main_loop_no_error_iff ex_env_ok ex_cfg [ex_redis; ex_nginx] ex_world).
  - vm_compute. discriminate.
  - reflexivity.
Defined.

(** *** The whole run, continued *)

Lemma main_migrate_emitted_from E cfg charts w w3 :
  trace w3 = trace w ++ emitted w w3 ->
  emitted w (snd (main_migrate E cfg charts w3)) =
    emitted w w3 ++ emitted w3 (snd (main_migrate E cfg charts w3)).
Proof.
  intros Hg.
  destruct (main_migrate_run E cfg charts w3) as (_ & _ & Hg' & _).
  by destruct (emitted_trans _ _ _ Hg Hg') as [_ ->].
Qed.

Lemma loop_body_bar_calls E cfg hc n w :
  bar_calls (emitted w (snd (loop_body E cfg hc n w))) = [EvBarAdd 1].
Proof. run_prog; reflexivity. Qed.

Lemma loop_body_login_cmds E cfg hc n w :
  login_cmds (emitted w (snd (loop_body E cfg hc n w))) = [].
Proof. run_prog; reflexivity. Qed.

Lemma flat_map_singleton {A B} (x : B) (l : list A) :
  flat_map (fun _ => [x]) l = map (fun _ => x) l.
Proof. induction l as [|a l IH]; cbn; [reflexivity|]. by rewrite IH. Qed.

Lemma flat_map_nil {A B} (l : list A) :
  flat_map (fun _ => @nil B) l = [].
Proof. induction l as [|a l IH]; cbn; [reflexivity|]. exact IH. Qed.

(** X13: the progress bar is set up for as many steps as there are charts
    and advanced by one for every chart, whatever the results of the
    transfers: at the end of the run it is full. *)
Theorem main_migrate_bar_calls E cfg charts w :
  bar_calls (emitted w (snd (main_migrate E cfg charts w))) =
    EvBarDefault (len charts) :: map (fun _ => EvBarAdd 1) charts.
Proof.
  destruct (main_migrate_run E cfg charts w) as (_ & _ & _ & ->).
  unfold bar_calls. rewrite !omap_app.
  rewrite (main_loop_omap_turns _ (fun _ => [EvBarAdd 1]))
    by (intros; apply loop_body_bar_calls).
  rewrite flat_map_singleton. cbn [omap list_omap app]. by rewrite app_nil_r.
Qed.

(** X14: with no chart to migrate the run does nothing but log: it logs 0
    charts to migrate and 0 charts migrated, sets up an empty progress
    bar, leaves the working directory alone and ends with status 0. *)
Theorem main_migrate_nil E cfg w :
  main_migrate E cfg [] w =
    (0%Z,
     {| files := files w;
        trace := trace w ++ [EvPrintf msg_to_migrate 0; EvBarDefault 0;
                             EvPrintf msg_migrated 0] |}).
Proof.
  unfold main_migrate, log_Printf, bind, ret, emit. cbn.
  by rewrite <- !app_assoc.
Qed.

(** X15: the logins.  The first call of [main] is the login to the source
    with the user name and the password of the source on the command line;
    the login to the destination follows only if the first succeeded; and
    no other login is made in the run, so that each side is logged in to
    at most once. *)
Theorem main_login_order E cfg w :
  let src := login_Command (sourceHarborURL cfg) (sourceHarborUsername cfg)
               (sourceHarborPassword cfg) in
  let dst := login_Command (destinationHarborURL cfg)
               (destinationHarborUsername cfg) (destinationHarborPassword cfg) in
  let evs := emitted w (snd (main E cfg w)) in
  head evs = Some (EvRun src) /\
  login_cmds evs =
    match cmd_run E w src with
    | Some _ => [src]
    | None => [src; dst]
    end.
Proof.
  cbv zeta. unfold login_Command.
  run_prog; try (by split).
  match goal with
  | |- context [main_migrate E cfg ?l ?w3] =>
      rewrite (main_migrate_emitted_from E cfg l w w3)
        by (read_trace; cbn [trace]; by rewrite <- ?app_assoc);
      destruct (main_migrate_run E cfg l w3) as (_ & _ & _ & ->)
  end.
  unfold login_cmds. rewrite !omap_app.
  rewrite (main_loop_omap_turns _ (fun _ => []))
    by (intros; apply loop_body_login_cmds).
  rewrite flat_map_nil. read_trace. by split.
Qed.

(** X16: a failed listing of the charts is fatal.  When both logins
    succeed and the listing fails, the process ends with status 1 after
    the two logins, the listing and the fatal log line with the wrapped
    error; nothing is fetched or pushed and no file changes. *)
Theorem main_listing_failure_is_fatal E cfg w e :
  let l1 := helmLogin E (sourceHarborURL cfg) (sourceHarborUsername cfg)
              (sourceHarborPassword cfg) w in
  let l2 := helmLogin E (destinationHarborURL cfg) (destinationHarborUsername cfg)
              (destinationHarborPassword cfg) (snd l1) in
  let d := getHarborChartmuseumCharts E (snd l2) in
  fst l1 = None -> fst l2 = None -> fst d = inl e ->
  let r := main E cfg w in
  fst r = 1%Z /\
  files (snd r) = files w /\
  steps (emitted w (snd r)) = [] /\
  emitted w (snd r) =
    [EvRun (login_Command (sourceHarborURL cfg) (sourceHarborUsername cfg)
              (sourceHarborPassword cfg));
     EvRun (login_Command (destinationHarborURL cfg)
              (destinationHarborUsername cfg) (destinationHarborPassword cfg));
     EvListCharts;
     EvFatal (Wrap "Failed to retrieve Helm charts from source" e)].
Proof.
  cbv zeta. revert e. unfold login_Command.
  run_prog; intros e0 H1 H2 H3; simplify_eq. by repeat split.
Qed.

Lemma main_listing_failure_is_fatal_witness :
  fst (main ex_env_listing_fails ex_cfg ex_world) = 1%Z /\
  steps (emitted ex_world (snd (main ex_env_listing_fails ex_cfg ex_world))) = [].
Proof.
  destruct (main_listing_failure_is_fatal ex_env_listing_fails ex_cfg ex_world
              (ErrListCharts "503 Service Unavailable") eq_refl eq_refl eq_refl)
    as (Hc & _ & Hs & _).
  split; [exact Hc | exact Hs].
Defined.


Lemma main_loop_Forall (P : Event -> Prop) E cfg :
  (forall hc n w, Forall P (emitted w (snd (loop_body E cfg hc n w)))) ->
  forall charts n w, Forall P (emitted w (snd (main_loop E cfg charts n w))).
Proof.
  intros Hb. induction charts as [|hc rest IH]; intros n w.
  - cbn. by rewrite emitted_refl.
  - rewrite main_loop_emitted. apply Forall_app. split; [apply Hb | apply IH].
Qed.

(** What holds of the calls of [main] itself and of the calls of every
    turn of the loop holds of all the calls of a run. *)
Lemma main_Forall (P : Event -> Prop) E cfg w :
  (forall ev, main_event ev = true -> P ev) ->
  (forall hc n w, Forall P (emitted w (snd (loop_body E cfg hc n w)))) ->
  Forall P (emitted w (snd (main E cfg w))).
Proof.
  intros Hmain Hb.
  run_prog;
    try (repeat first [apply Forall_nil_2
                      | apply Forall_cons_2; [by apply Hmain|]]).
  match goal with
  | |- context [main_migrate E cfg ?l ?w3] =>
      rewrite (main_migrate_emitted_from E cfg l w w3)
        by (read_trace; cbn [trace]; by rewrite <- ?app_assoc);
      destruct (main_migrate_run E cfg l w3) as (_ & _ & _ & ->)
  end.
  repeat (apply Forall_app; split); try (by apply main_loop_Forall);
    read_trace;
    repeat first [apply Forall_nil_2
                 | apply Forall_cons_2; [by apply Hmain|]].
Qed.

(** X18: in every run, every request sent is a GET carrying the user name
    and the password of the source as basic authentication, sent by a
    client with the timeout; and every file is written with mode 0o600. *)
Theorem main_sends_as_configured E cfg w :
  Forall (sent_as_configured cfg) (emitted w (snd (main E cfg w))).
Proof.
  apply main_Forall.
  - by intros [].
  - intros hc n w0. run_prog; repeat constructor.
Qed.


